(** * flask_authentic.account.views

    A shallow embedding of [src/flask_authentic/account/views.py]: the
    mixin that resolves the schema and serializer classes from the active
    configuration, and the seven account views with the handlers they
    define.

    The views are glue code.  What they call ([_process_request] of
    protean_flask, [perform_import] of protean, [isinstance(_, Entity)],
    [Entity.to_dict]) is not part of the repository and is taken as a
    variable of the section; what they read ([request.payload],
    [context.account], [active_config]) is a field of the state. *)

From Stdlib Require Import String List ZArith Bool.
From ExtLib Require Import Structures.Monad.
Import ListNotations.
Import MonadNotation.

Local Open Scope string_scope.
Local Open Scope list_scope.
Local Open Scope monad_scope.

Set Implicit Arguments.
Set Warnings "-register-all".

(** ** Python values *)

(** The values that flow through the views: JSON-like payloads, and
    instances of classes defined elsewhere (the account entity, the
    response of a use case), kept as a class name and an attribute list. *)
Inductive pyval : Type :=
| PyNone
| PyBool (b : bool)
| PyInt (n : Z)
| PyStr (s : string)
| PyList (items : list pyval)
| PyDict (items : list (string * pyval))
| PyObj (cls : string) (attrs : list (string * pyval)).

(** Truth value testing, as [not x] and [if x] do it: [None], [False],
    zero, and the empty string, list and dict are false, and an instance
    is true. *)
Definition truthy (v : pyval) : bool :=
  match v with
  | PyNone => false
  | PyBool b => b
  | PyInt n => negb (n =? 0)%Z
  | PyStr s => negb (s =? "")
  | PyList items => match items with [] => false | _ :: _ => true end
  | PyDict items => match items with [] => false | _ :: _ => true end
  | PyObj _ _ => true
  end.

Fixpoint assoc (k : string) (items : list (string * pyval)) : option pyval :=
  match items with
  | [] => None
  | (k', v) :: rest => if k =? k' then Some v else assoc k rest
  end.

(** [d[k]] on a dict, [None] on a missing key or on a value that is not a
    dict. *)
Definition dict_get (k : string) (d : pyval) : option pyval :=
  match d with
  | PyDict items => assoc k items
  | _ => None
  end.

(** ** Exceptions and results *)

Inductive exn : Type :=
| ConfigurationError (msg : string)
| AttributeError (name : string)
| OtherError (cls : string) (msg : string).

Inductive result (A : Type) : Type :=
| Val (a : A)
| Exc (e : exn).
Arguments Exc {A} e.

(** [o.name]: the attribute of an instance, [AttributeError] when it has
    none of that name. *)
Definition getattr (o : pyval) (name : string) : result pyval :=
  match o with
  | PyObj _ attrs =>
      match assoc name attrs with
      | Some v => Val v
      | None => Exc (AttributeError name)
      end
  | _ => Exc (AttributeError name)
  end.

(** ** What the views import *)

(** [authentic.usecases.core], lines 10-16 of the source. *)
Inductive usecase : Type :=
| CreateAccountUseCase
| UpdateAccountUseCase
| ChangeAccountPasswordUseCase
| SendResetPasswordEmailUsecase
| ResetPasswordUsecase
| LoginUseCase
| LogoutUseCase.

Inductive request_object : Type :=
| CreateAccountRequestObject
| UpdateAccountRequestObject
| ChangeAccountPasswordRequestObject
| SendResetPasswordEmailRequestObject
| ResetPasswordRequestObject
| LoginRequestObject
| LogoutRequestObject.

(** [protean_flask.core.views], lines 19-20. *)
Inductive api_resource : Type :=
| CreateAPIResource
| UpdateAPIResource
| GenericAPIResource.

(** [flask_authentic.decorators]: [is_authenticated()] is the only
    decorator the views list. *)
Inductive decorator : Type :=
| is_authenticated.

Inductive http_method : Type :=
| GET | POST | PUT | PATCH | DELETE.

(** ** The state a request is handled in *)

(** [flask.request], as far as the views read it. *)
Record Request : Type := { payload : pyval }.

(** [protean.context.context]: [account] is set once a request is
    authenticated. *)
Record AppContext : Type := { account : option pyval }.

(** [protean.conf.active_config]: each setting holds a value, [None] when
    the application did not set it. *)
Record Config : Type :=
  { ACCOUNT_SCHEMA_CLS : pyval;
    ACCOUNT_SERIALIZER_CLS : pyval }.

(** [app] is everything the use cases own: accounts, tokens, sessions. *)
Record World (App : Type) : Type :=
  { request : Request;
    context : AppContext;
    active_config : Config;
    app : App }.

(** A call that leaves this layer. *)
Inductive invocation : Type :=
| ProcessRequest (usecase_cls : usecase) (request_object_cls : request_object)
                 (payload : pyval) (no_serialization : bool)
| PerformImport (path : pyval).

(** ** The views as classes *)

Inductive view : Type :=
| CreateAccountResource
| UpdateAccountResource
| ChangePasswordResource
| SendResetPasswordEmailResource
| ResetPasswordResource
| LoginResource
| LogoutResource.

Definition views : list view :=
  [ CreateAccountResource; UpdateAccountResource; ChangePasswordResource;
    SendResetPasswordEmailResource; ResetPasswordResource; LoginResource;
    LogoutResource ].

(** The second base class of each view; the first is [AccountViewMixin]. *)
Definition base (v : view) : api_resource :=
  match v with
  | CreateAccountResource => CreateAPIResource
  | UpdateAccountResource => UpdateAPIResource
  | ChangePasswordResource => GenericAPIResource
  | SendResetPasswordEmailResource => GenericAPIResource
  | ResetPasswordResource => GenericAPIResource
  | LoginResource => GenericAPIResource
  | LogoutResource => GenericAPIResource
  end.

Definition request_object_cls (v : view) : request_object :=
  match v with
  | CreateAccountResource => CreateAccountRequestObject
  | UpdateAccountResource => UpdateAccountRequestObject
  | ChangePasswordResource => ChangeAccountPasswordRequestObject
  | SendResetPasswordEmailResource => SendResetPasswordEmailRequestObject
  | ResetPasswordResource => ResetPasswordRequestObject
  | LoginResource => LoginRequestObject
  | LogoutResource => LogoutRequestObject
  end.

Definition usecase_cls (v : view) : usecase :=
  match v with
  | CreateAccountResource => CreateAccountUseCase
  | UpdateAccountResource => UpdateAccountUseCase
  | ChangePasswordResource => ChangeAccountPasswordUseCase
  | SendResetPasswordEmailResource => SendResetPasswordEmailUsecase
  | ResetPasswordResource => ResetPasswordUsecase
  | LoginResource => LoginUseCase
  | LogoutResource => LogoutUseCase
  end.

(** The [decorators] attribute a class body sets; a class that sets none
    adds none. *)
Definition decorators (v : view) : list decorator :=
  match v with
  | CreateAccountResource => [is_authenticated]
  | UpdateAccountResource => [is_authenticated]
  | ChangePasswordResource => [is_authenticated]
  | SendResetPasswordEmailResource => []
  | ResetPasswordResource => []
  | LoginResource => []
  | LogoutResource => [is_authenticated]
  end.

(** The HTTP methods a class body defines a handler for. *)
Definition handlers (v : view) : list http_method :=
  match v with
  | CreateAccountResource => []
  | UpdateAccountResource => []
  | ChangePasswordResource => [POST]
  | SendResetPasswordEmailResource => [POST]
  | ResetPasswordResource => [POST]
  | LoginResource => [POST]
  | LogoutResource => [POST]
  end.

(** ** Running a method *)

(** What a method leaves behind: how it ended, the state it ended in and
    the calls it made out of this layer, oldest first. *)
Inductive outcome (A : Type) : Type :=
| Returned (a : A)
| Raised (e : exn).
Arguments Raised {A} e.

Record run (W A : Type) : Type :=
  { res : outcome A;
    final : W;
    calls : list invocation }.

Definition M (W A : Type) : Type := W -> run W A.

Definition ret_M {W A} (a : A) : M W A :=
  fun w => {| res := Returned a; final := w; calls := [] |}.

Definition bind_M {W A B} (m : M W A) (k : A -> M W B) : M W B :=
  fun w =>
    let r := m w in
    match res r with
    | Returned a =>
        let r' := k a (final r) in
        {| res := res r'; final := final r'; calls := calls r ++ calls r' |}
    | Raised e =>
        {| res := Raised e; final := final r; calls := calls r |}
    end.

#[global] Instance Monad_M {W} : Monad (M W) :=
  {| ret := fun _ a => ret_M a;
     bind := fun _ _ m k => bind_M m k |}.

(** [raise e] *)
Definition raise {W A} (e : exn) : M W A :=
  fun w => {| res := Raised e; final := w; calls := [] |}.

(** A read of the state: it changes nothing and calls nothing. *)
Definition read {W A} (f : W -> result A) : M W A :=
  fun w =>
    match f w with
    | Val a => {| res := Returned a; final := w; calls := [] |}
    | Exc e => {| res := Raised e; final := w; calls := [] |}
    end.

Definition of_result {A} (r : result A) : outcome A :=
  match r with
  | Val a => Returned a
  | Exc e => Raised e
  end.

(** ** A stand-in for the use-case layer

    Enough of protean and authentic to run the views on: every use case
    counts itself in the state, login answers with the account entity and
    the others with a message. *)

Definition demo_account : pyval :=
  PyObj "Account" [("id", PyInt 7); ("username", PyStr "ann")].

Definition demo_process_request (uc : usecase) (ro : request_object)
  (p : pyval) (no_serialization : bool) (w : World nat)
  : result pyval * World nat :=
  let w' := {| request := request w; context := context w;
               active_config := active_config w; app := S (app w) |} in
  match uc with
  | LoginUseCase => (Val demo_account, w')
  | _ => (Val (PyDict [("message", PyStr "Success")]), w')
  end.

Definition demo_perform_import (path : pyval) (w : World nat)
  : result pyval * World nat :=
  match path with
  | PyStr s => (Val (PyObj "type" [("__name__", PyStr s)]), w)
  | _ => (Exc (OtherError "ImportError" "not a dotted path"), w)
  end.

Definition demo_isinstance_Entity (v : pyval) : bool :=
  match v with
  | PyObj cls _ => cls =? "Account"
  | _ => false
  end.

Definition demo_to_dict (v : pyval) : result pyval :=
  match v with
  | PyObj _ attrs => Val (PyDict attrs)
  | _ => Exc (AttributeError "to_dict")
  end.

Definition demo_world (acc : option pyval) (data : pyval) : World nat :=
  {| request := {| payload := data |};
     context := {| account := acc |};
     active_config :=
       {| ACCOUNT_SCHEMA_CLS := PyStr "app.schemas.AccountSchema";
          ACCOUNT_SERIALIZER_CLS := PyNone |};
     app := 0 |}.

(** A payload that names an account of its own at its top level. *)
Definition forged_payload : pyval :=
  PyDict [("identifier", PyInt 999); ("new_password", PyStr "hunter2")].

Definition plain_payload : pyval :=
  PyDict [("new_password", PyStr "s3cret")].

(** A use-case layer that turns every request down. *)
Definition refusing_process_request (uc : usecase) (ro : request_object)
  (p : pyval) (no_serialization : bool) (w : World nat)
  : result pyval * World nat :=
  (Exc (OtherError "ValidationError" "rejected"),
   {| request := request w; context := context w;
      active_config := active_config w; app := S (app w) |}).

Section Views.

(** The state of the use cases. *)
Variable App : Type.

#[local] Abbreviation W := (World App).

(** [GenericAPIResource._process_request(usecase_cls, request_object_cls,
    payload, no_serialization)] of protean_flask. *)
Variable _process_request :
  usecase -> request_object -> pyval -> bool -> W -> result pyval * W.

(** [protean.utils.importlib.perform_import]. *)
Variable perform_import : pyval -> W -> result pyval * W.

(** [isinstance(_, Entity)] and [Entity.to_dict]. *)
Variable isinstance_Entity : pyval -> bool.
Variable to_dict : pyval -> result pyval.

(** State of the world after an invocation, and what it gave back. *)
Definition perform (i : invocation) (w : W) : result pyval * W :=
  match i with
  | ProcessRequest uc ro p ns => _process_request uc ro p ns w
  | PerformImport path => perform_import path w
  end.

Definition invoke (i : invocation) : M W pyval :=
  fun w =>
    let (r, w') := perform i w in
    {| res := of_result r; final := w'; calls := [i] |}.

(** [request.payload] *)
Definition request_payload : M W pyval :=
  read (fun w => Val (payload (request w))).

(** [context.account] *)
Definition context_account : M W pyval :=
  read (fun w =>
          match account (context w) with
          | Some a => Val a
          | None => Exc (AttributeError "account")
          end).

(** [active_config.NAME] *)
Definition config (setting : Config -> pyval) : M W pyval :=
  read (fun w => Val (setting (active_config w))).

(** *** AccountViewMixin *)

Definition get_schema_cls : M W pyval :=
  v <- config ACCOUNT_SCHEMA_CLS ;;
  if negb (truthy v) then
    raise (ConfigurationError
             "`ACCOUNT_SCHEMA_CLS` has not been set in the config.")
  else
    path <- config ACCOUNT_SCHEMA_CLS ;;
    invoke (PerformImport path).

Definition get_serializer_cls : M W pyval :=
  v <- config ACCOUNT_SERIALIZER_CLS ;;
  if negb (truthy v) then
    raise (ConfigurationError
             "`ACCOUNT_SERIALIZER_CLS` has not been set in the config.")
  else
    path <- config ACCOUNT_SERIALIZER_CLS ;;
    invoke (PerformImport path).

(** *** The handlers *)

(** [ChangePasswordResource.post(self)] *)
Definition ChangePasswordResource_post : M W pyval :=
  acc <- context_account ;;
  ident <- read (fun _ => getattr acc "id") ;;
  data <- request_payload ;;
  let payload := PyDict [("identifier", ident); ("data", data)] in
  invoke (ProcessRequest (usecase_cls ChangePasswordResource)
                         (request_object_cls ChangePasswordResource)
                         payload true).

(** [SendResetPasswordEmailResource.post(self)] *)
Definition SendResetPasswordEmailResource_post : M W pyval :=
  data <- request_payload ;;
  invoke (ProcessRequest (usecase_cls SendResetPasswordEmailResource)
                         (request_object_cls SendResetPasswordEmailResource)
                         data true).

(** [ResetPasswordResource.post(self, token)] *)
Definition ResetPasswordResource_post (token : pyval) : M W pyval :=
  data <- request_payload ;;
  let payload := PyDict [("token", token); ("data", data)] in
  invoke (ProcessRequest (usecase_cls ResetPasswordResource)
                         (request_object_cls ResetPasswordResource)
                         payload true).

(** [LoginResource.post(self)] *)
Definition LoginResource_post : M W pyval :=
  data <- request_payload ;;
  response <- invoke (ProcessRequest (usecase_cls LoginResource)
                                     (request_object_cls LoginResource)
                                     data true) ;;
  if isinstance_Entity response then
    read (fun _ => to_dict response)
  else
    ret response.

(** [LogoutResource.post(self)] *)
Definition LogoutResource_post : M W pyval :=
  acc <- context_account ;;
  invoke (ProcessRequest (usecase_cls LogoutResource)
                         (request_object_cls LogoutResource)
                         (PyDict [("account", acc)]) true).

(** The handler a class body defines for an HTTP method; [token] is the
    path parameter of the route.  The handlers of [CreateAccountResource]
    and [UpdateAccountResource] are those of their protean_flask base. *)
Definition handler (v : view) (m : http_method) (token : pyval)
  : option (M W pyval) :=
  match v, m with
  | ChangePasswordResource, POST => Some ChangePasswordResource_post
  | SendResetPasswordEmailResource, POST =>
      Some SendResetPasswordEmailResource_post
  | ResetPasswordResource, POST => Some (ResetPasswordResource_post token)
  | LoginResource, POST => Some LoginResource_post
  | LogoutResource, POST => Some LogoutResource_post
  | _, _ => None
  end.

(** What one forwarded call leaves behind. *)
Definition forwards (uc : usecase) (ro : request_object) (p : pyval)
  (w : W) : run W pyval :=
  {| res := of_result (fst (_process_request uc ro p true w));
     final := snd (_process_request uc ro p true w);
     calls := [ProcessRequest uc ro p true] |}.

(** The payload of each [_process_request] call of a run, and what a run
    handed over under a key of it. *)
Definition forwarded_payloads {A} (r : run W A) : list pyval :=
  flat_map (fun i => match i with
                     | ProcessRequest _ _ p _ => [p]
                     | PerformImport _ => []
                     end) (calls r).

Definition forwarded {A} (k : string) (r : run W A) : list (option pyval) :=
  map (dict_get k) (forwarded_payloads r).

(** A method raised [e] itself: it ended in [e] and nothing outside this
    layer had been called. *)
Definition raised_here {A} (r : run W A) (e : exn) : Prop :=
  res r = Raised e /\ calls r = [].

Definition is_ConfigurationError (e : exn) : bool :=
  match e with
  | ConfigurationError _ => true
  | _ => false
  end.




(** ** Properties of the methods *)

Ltac run_method :=
  unfold bind, ret, Monad_M, bind_M, ret_M, raise,
    request_payload, context_account, config, read; cbn.

Lemma invoke_run (i : invocation) (w : W) :
  invoke i w =
  {| res := of_result (fst (perform i w));
     final := snd (perform i w);
     calls := [i] |}.
Proof.
  unfold invoke. destruct (perform i w) as [r w']. reflexivity.
Qed.

Lemma get_schema_cls_run (w : W) :
  get_schema_cls w =
  (if truthy (ACCOUNT_SCHEMA_CLS (active_config w))
   then invoke (PerformImport (ACCOUNT_SCHEMA_CLS (active_config w))) w
   else raise (ConfigurationError
                 "`ACCOUNT_SCHEMA_CLS` has not been set in the config.") w).
Proof.
  unfold get_schema_cls. run_method.
  destruct (truthy (ACCOUNT_SCHEMA_CLS (active_config w))); cbn;
    [rewrite !invoke_run |]; reflexivity.
Qed.

Lemma get_serializer_cls_run (w : W) :
  get_serializer_cls w =
  (if truthy (ACCOUNT_SERIALIZER_CLS (active_config w))
   then invoke (PerformImport (ACCOUNT_SERIALIZER_CLS (active_config w))) w
   else raise (ConfigurationError
                 "`ACCOUNT_SERIALIZER_CLS` has not been set in the config.") w).
Proof.
  unfold get_serializer_cls. run_method.
  destruct (truthy (ACCOUNT_SERIALIZER_CLS (active_config w))); cbn;
    [rewrite !invoke_run |]; reflexivity.
Qed.

(** Whatever a method is, once it has called out it has not raised
    "here". *)
Lemma raised_here_if (b : bool) (i : invocation) (e : exn) (w : W) :
  (exists msg,
      raised_here (if b then invoke i w else raise e w)
                  (ConfigurationError msg))
  <-> (b = false /\ is_ConfigurationError e = true).
Proof.
  unfold raised_here. split.
  - intros [msg [Hr Hc]]. destruct b.
    + rewrite invoke_run in Hc. discriminate Hc.
    + cbn in Hr. injection Hr as ->. split; reflexivity.
  - intros [-> He]. destruct e as [msg | |]; try discriminate He.
    exists msg. split; reflexivity.
Qed.

(** C1.  In every state, [get_schema_cls] raises a [ConfigurationError]
    of its own exactly when [ACCOUNT_SCHEMA_CLS] is falsy in the active
    config (not set, or set to an empty value), and otherwise it is the
    call of [perform_import] on the configured path, whose result it
    returns; [get_serializer_cls] does the same with
    [ACCOUNT_SERIALIZER_CLS]. *)
Theorem get_cls_raises_iff_absent (w : W) :
  let schema := ACCOUNT_SCHEMA_CLS (active_config w) in
  let serializer := ACCOUNT_SERIALIZER_CLS (active_config w) in
  ((exists msg, raised_here (get_schema_cls w) (ConfigurationError msg))
   <-> truthy schema = false)
  /\ get_schema_cls w =
     (if truthy schema then invoke (PerformImport schema) w
      else raise (ConfigurationError
                    "`ACCOUNT_SCHEMA_CLS` has not been set in the config.") w)
  /\ ((exists msg, raised_here (get_serializer_cls w) (ConfigurationError msg))
      <-> truthy serializer = false)
  /\ get_serializer_cls w =
     (if truthy serializer then invoke (PerformImport serializer) w
      else raise (ConfigurationError
                    "`ACCOUNT_SERIALIZER_CLS` has not been set in the config.") w).
Proof.
  intros schema serializer. subst schema serializer.
  repeat split; try apply get_schema_cls_run; try apply get_serializer_cls_run.
  - rewrite get_schema_cls_run, raised_here_if. tauto.
  - intros Hf. rewrite get_schema_cls_run. apply raised_here_if. auto.
  - rewrite get_serializer_cls_run, raised_here_if. tauto.
  - intros Hf. rewrite get_serializer_cls_run. apply raised_here_if. auto.
Qed.

Lemma invoke_forwards (uc : usecase) (ro : request_object) (p : pyval) (w : W) :
  invoke (ProcessRequest uc ro p true) w = forwards uc ro p w.
Proof. apply invoke_run. Qed.

Lemma ChangePasswordResource_post_run (w : W) (acc ident : pyval) :
  account (context w) = Some acc ->
  getattr acc "id" = Val ident ->
  ChangePasswordResource_post w =
  forwards (usecase_cls ChangePasswordResource)
           (request_object_cls ChangePasswordResource)
           (PyDict [("identifier", ident); ("data", payload (request w))]) w.
Proof.
  intros Hacc Hid. unfold ChangePasswordResource_post. run_method.
  rewrite Hacc. cbn. rewrite Hid. cbn.
  rewrite invoke_forwards. reflexivity.
Qed.

(** C2.  On an authenticated request, whose account has an [id],
    [ChangePasswordResource.post] makes one call, of [_process_request]
    with [ChangeAccountPasswordUseCase], its request object, the payload
    [{'identifier': context.account.id, 'data': request.payload}] and
    [no_serialization=True], and ends as that call ends. *)
Theorem ChangePasswordResource_post_forwards (w : W) (acc ident : pyval) :
  account (context w) = Some acc ->
  getattr acc "id" = Val ident ->
  ChangePasswordResource_post w =
  forwards ChangeAccountPasswordUseCase ChangeAccountPasswordRequestObject
           (PyDict [("identifier", ident); ("data", payload (request w))]) w.
Proof.
  intros Hacc Hid. exact (ChangePasswordResource_post_run w Hacc Hid).
Qed.

(** C3.  The ['identifier'] that [ChangePasswordResource.post] forwards
    is the [id] of the authenticated account, whatever the request
    carries: two requests of the same account forward the same
    identifier, and it is the account's. *)
Theorem ChangePasswordResource_identifier_from_context
  (w1 w2 : W) (acc ident : pyval) :
  account (context w1) = Some acc ->
  account (context w2) = Some acc ->
  getattr acc "id" = Val ident ->
  forwarded "identifier" (ChangePasswordResource_post w1) = [Some ident]
  /\ forwarded "identifier" (ChangePasswordResource_post w2) = [Some ident]
  /\ forwarded "data" (ChangePasswordResource_post w1)
     = [Some (payload (request w1))]
  /\ forwarded "data" (ChangePasswordResource_post w2)
     = [Some (payload (request w2))].
Proof.
  intros H1 H2 Hid.
  rewrite (ChangePasswordResource_post_run w1 H1 Hid).
  rewrite (ChangePasswordResource_post_run w2 H2 Hid).
  repeat split; reflexivity.
Qed.

(** C4.  [LoginResource.post] makes one call, of [_process_request] with
    [LoginUseCase], its request object, [request.payload] and
    [no_serialization=True]; it returns [response.to_dict()] when the
    response is an [Entity] and the response itself when it is not. *)
Theorem LoginResource_post_serializes_entities (w : W) :
  let data := payload (request w) in
  let call := forwards LoginUseCase LoginRequestObject data w in
  let r := LoginResource_post w in
  calls r = calls call
  /\ final r = final call
  /\ match res call with
     | Returned response =>
         res r = if isinstance_Entity response
                 then of_result (to_dict response)
                 else Returned response
     | Raised e => res r = Raised e
     end.
Proof.
  cbn zeta. unfold LoginResource_post. run_method.
  rewrite invoke_forwards. unfold forwards.
  destruct (_process_request LoginUseCase LoginRequestObject
                             (payload (request w)) true w)
    as [[response | e] w'];
    cbn; [| repeat split; reflexivity].
  destruct (isinstance_Entity response); cbn;
    [destruct (to_dict response); cbn |]; repeat split; reflexivity.
Qed.

Lemma ResetPasswordResource_post_run (w : W) (token : pyval) :
  ResetPasswordResource_post token w =
  forwards (usecase_cls ResetPasswordResource)
           (request_object_cls ResetPasswordResource)
           (PyDict [("token", token); ("data", payload (request w))]) w.
Proof.
  unfold ResetPasswordResource_post. run_method.
  rewrite invoke_forwards. reflexivity.
Qed.

Lemma SendResetPasswordEmailResource_post_run (w : W) :
  SendResetPasswordEmailResource_post w =
  forwards (usecase_cls SendResetPasswordEmailResource)
           (request_object_cls SendResetPasswordEmailResource)
           (payload (request w)) w.
Proof.
  unfold SendResetPasswordEmailResource_post. run_method.
  rewrite invoke_forwards. reflexivity.
Qed.

(** C5.  [ResetPasswordResource.post(token)] makes one call, of
    [_process_request] with [ResetPasswordUsecase], its request object,
    the payload [{'token': token, 'data': request.payload}] and
    [no_serialization=True], and ends as that call ends. *)
Theorem ResetPasswordResource_post_forwards (w : W) (token : pyval) :
  ResetPasswordResource_post token w =
  forwards ResetPasswordUsecase ResetPasswordRequestObject
           (PyDict [("token", token); ("data", payload (request w))]) w.
Proof. exact (ResetPasswordResource_post_run w token). Qed.

(** C6.  On an authenticated request [LogoutResource.post] makes one
    call, of [_process_request] with [LogoutUseCase], its request object,
    the payload [{'account': context.account}] and
    [no_serialization=True], and ends as that call ends. *)
Theorem LogoutResource_post_forwards (w : W) (acc : pyval) :
  account (context w) = Some acc ->
  LogoutResource_post w =
  forwards LogoutUseCase LogoutRequestObject (PyDict [("account", acc)]) w.
Proof.
  intros Hacc. unfold LogoutResource_post. run_method.
  rewrite Hacc. cbn. rewrite invoke_forwards. reflexivity.
Qed.

(** C7.  [SendResetPasswordEmailResource.post] makes one call, of
    [_process_request] with [SendResetPasswordEmailUsecase], its request
    object, [request.payload] as it is and [no_serialization=True], and
    ends as that call ends. *)
Theorem SendResetPasswordEmailResource_post_forwards (w : W) :
  SendResetPasswordEmailResource_post w =
  forwards SendResetPasswordEmailUsecase SendResetPasswordEmailRequestObject
           (payload (request w)) w.
Proof. exact (SendResetPasswordEmailResource_post_run w). Qed.

Lemma handler_defined (v : view) (m : http_method) (token : pyval) :
  In m (handlers v) <-> handler v m token <> None.
Proof.
  destruct v, m; cbn; split; intros H; try discriminate; try tauto;
    try (exfalso; apply H; reflexivity); try (destruct H as [H | []]; discriminate H).
Qed.

Lemma calls_invoke (i : invocation) (w : W) : calls (invoke i w) = [i].
Proof. rewrite invoke_run. reflexivity. Qed.



(** ** Further properties of the methods *)

Lemma getattr_error (o : pyval) (name : string) (e : exn) :
  getattr o name = Exc e -> e = AttributeError name.
Proof.
  unfold getattr. destruct o; try (intros H; injection H as <-; reflexivity).
  destruct (assoc name attrs); [discriminate |].
  intros H. injection H as <-. reflexivity.
Qed.

(** X1.  [ChangePasswordResource.post] reaches the use case exactly when the
    context holds an account that has an [id].  Otherwise it raises an
    [AttributeError], having called nothing and changed nothing. *)
Theorem ChangePasswordResource_post_needs_account_id (w : W) :
  let r := ChangePasswordResource_post w in
  ((exists acc ident,
       account (context w) = Some acc /\ getattr acc "id" = Val ident)
   <-> calls r <> [])
  /\ (calls r = [] ->
      final r = w /\ exists name, res r = Raised (AttributeError name)).
Proof.
  cbn zeta. unfold ChangePasswordResource_post. run_method.
  destruct (account (context w)) as [acc |]; cbn.
  - destruct (getattr acc "id") as [ident | e] eqn:Hid; cbn.
    + rewrite calls_invoke. split.
      * split; [discriminate | intros _; eauto].
      * discriminate.
    + pose proof (getattr_error _ _ Hid) as ->. split.
      * split; [intros (a & i & Ha & Hi) | intros H; exfalso; apply H; reflexivity].
        injection Ha as <-. rewrite Hid in Hi. discriminate Hi.
      * intros _. eauto.
  - split.
    + split; [intros (a & i & Ha & _); discriminate Ha
             | intros H; exfalso; apply H; reflexivity].
    + intros _. eauto.
Qed.

(** X2.  [LogoutResource.post] reaches the use case exactly when the context
    holds an account.  Otherwise it raises an [AttributeError], having
    called nothing and changed nothing. *)
Theorem LogoutResource_post_needs_account (w : W) :
  let r := LogoutResource_post w in
  (account (context w) <> None <-> calls r <> [])
  /\ (calls r = [] ->
      final r = w /\ res r = Raised (AttributeError "account")).
Proof.
  cbn zeta. unfold LogoutResource_post. run_method.
  destruct (account (context w)) as [acc |]; cbn.
  - rewrite calls_invoke. split; [split; discriminate | discriminate].
  - split; [| auto]. split; intros H; exfalso; apply H; reflexivity.
Qed.

(** X3.  On a request without an authenticated account, a handler stops
    before its use case exactly when its view lists [is_authenticated()]:
    the handlers of the views without the guard do not need the account,
    and what they call is settled by the request alone. *)
Theorem handler_needs_account_iff_guarded
  (v : view) (m : http_method) (token : pyval) (h : M W pyval) (w : W) :
  handler v m token = Some h ->
  account (context w) = None ->
  (calls (h w) = [] <-> In is_authenticated (decorators v))
  /\ (~ In is_authenticated (decorators v) ->
      forall w' : W, request w' = request w -> calls (h w') = calls (h w)).
Proof.
  intros Hh Hacc.
  destruct v, m; unfold handler in Hh; try discriminate Hh;
    injection Hh as <-; cbn [decorators In].
  - (* ChangePasswordResource *)
    split; [| intros H; exfalso; apply H; auto].
    unfold ChangePasswordResource_post. run_method. rewrite Hacc. cbn.
    split; auto.
  - (* SendResetPasswordEmailResource *)
    split.
    + rewrite SendResetPasswordEmailResource_post_run. cbn.
      split; [discriminate | intros []].
    + intros _ w' Hreq.
      rewrite !SendResetPasswordEmailResource_post_run, Hreq. reflexivity.
  - (* ResetPasswordResource *)
    split.
    + rewrite ResetPasswordResource_post_run. cbn.
      split; [discriminate | intros []].
    + intros _ w' Hreq.
      rewrite !ResetPasswordResource_post_run, Hreq. reflexivity.
  - (* LoginResource *)
    assert (Hcalls : forall u : W,
               calls (LoginResource_post u) =
               [ProcessRequest LoginUseCase LoginRequestObject
                               (payload (request u)) true]).
    { intros u. unfold LoginResource_post. run_method.
      rewrite invoke_forwards. unfold forwards.
      destruct (_process_request LoginUseCase LoginRequestObject
                                 (payload (request u)) true u)
        as [[response | e] u']; cbn; [| reflexivity].
      destruct (isinstance_Entity response); cbn;
        [destruct (to_dict response); cbn |]; reflexivity. }
    split.
    + rewrite Hcalls. split; [discriminate | intros []].
    + intros _ w' Hreq. rewrite !Hcalls, Hreq. reflexivity.
  - (* LogoutResource *)
    split; [| intros H; exfalso; apply H; auto].
    unfold LogoutResource_post. run_method. rewrite Hacc. cbn.
    split; auto.
Qed.

(** X4.  No handler catches what its use case raises: when the call of
    [_process_request] that a handler made ended in an exception, the
    handler ends in that exception, in the state the call left. *)
Theorem handler_propagates_use_case_error
  (v : view) (m : http_method) (token : pyval) (h : M W pyval) (w : W)
  (p : pyval) (e : exn) :
  handler v m token = Some h ->
  calls (h w) = [ProcessRequest (usecase_cls v) (request_object_cls v) p true] ->
  fst (_process_request (usecase_cls v) (request_object_cls v) p true w)
  = Exc e ->
  res (h w) = Raised e
  /\ final (h w) =
     snd (_process_request (usecase_cls v) (request_object_cls v) p true w).
Proof.
  intros Hh.
  destruct v, m; unfold handler in Hh; try discriminate Hh;
    injection Hh as <-.
  - (* ChangePasswordResource *)
    unfold ChangePasswordResource_post. run_method.
    destruct (account (context w)) as [acc |]; cbn; [| discriminate].
    destruct (getattr acc "id") as [ident | e0]; cbn; [| discriminate].
    rewrite invoke_forwards. cbn. intros Hc He.
    injection Hc as ->. rewrite He. split; reflexivity.
  - (* SendResetPasswordEmailResource *)
    rewrite SendResetPasswordEmailResource_post_run. cbn. intros Hc He.
    injection Hc as ->. rewrite He. split; reflexivity.
  - (* ResetPasswordResource *)
    rewrite ResetPasswordResource_post_run. cbn. intros Hc He.
    injection Hc as ->. rewrite He. split; reflexivity.
  - (* LoginResource *)
    unfold LoginResource_post. run_method.
    rewrite invoke_forwards. unfold forwards. cbn.
    destruct (_process_request LoginUseCase LoginRequestObject
                               (payload (request w)) true w)
      as [[response | e0] w'] eqn:E; cbn.
    + intros Hc He. exfalso.
      assert (Hp : payload (request w) = p).
      { destruct (isinstance_Entity response); cbn in Hc;
          [destruct (to_dict response); cbn in Hc |];
          injection Hc as Hc; exact Hc. }
      rewrite <- Hp, E in He. discriminate He.
    + intros Hc He. injection Hc as <-. rewrite E in He |- *.
      cbn in He. injection He as ->. split; reflexivity.
  - (* LogoutResource *)
    unfold LogoutResource_post. run_method.
    destruct (account (context w)) as [acc |]; cbn; [| discriminate].
    rewrite invoke_forwards. cbn. intros Hc He.
    injection Hc as ->. rewrite He. split; reflexivity.
Qed.

(** X5.  The ['token'] that [ResetPasswordResource.post] forwards is the path
    parameter, whatever the request carries; the request payload travels
    under ['data'] and adds no key of its own beside the two. *)
Theorem ResetPasswordResource_token_from_path (w : W) (token : pyval) :
  let r := ResetPasswordResource_post token w in
  forwarded "token" r = [Some token]
  /\ forwarded "data" r = [Some (payload (request w))]
  /\ forall k : string,
       k <> "token" -> k <> "data" -> forwarded k r = [None].
Proof.
  cbn zeta. rewrite ResetPasswordResource_post_run.
  split; [reflexivity |]. split; [reflexivity |].
  intros k Ht Hd. unfold forwarded, forwarded_payloads, forwards. cbn.
  apply String.eqb_neq in Ht, Hd. rewrite Ht, Hd. reflexivity.
Qed.

(** X6.  The mixin never hands a falsy path to [perform_import]: whatever
    [get_schema_cls] and [get_serializer_cls] call is [perform_import] on
    their own setting, and that setting is then truthy. *)
Theorem mixin_imports_only_set_paths (w : W) (i : invocation) :
  (In i (calls (get_schema_cls w)) ->
   i = PerformImport (ACCOUNT_SCHEMA_CLS (active_config w))
   /\ truthy (ACCOUNT_SCHEMA_CLS (active_config w)) = true)
  /\ (In i (calls (get_serializer_cls w)) ->
      i = PerformImport (ACCOUNT_SERIALIZER_CLS (active_config w))
      /\ truthy (ACCOUNT_SERIALIZER_CLS (active_config w)) = true).
Proof.
  rewrite get_schema_cls_run, get_serializer_cls_run. split.
  - destruct (truthy (ACCOUNT_SCHEMA_CLS (active_config w))).
    + rewrite calls_invoke. intros [<- | []]. split; reflexivity.
    + intros [].
  - destruct (truthy (ACCOUNT_SERIALIZER_CLS (active_config w))).
    + rewrite calls_invoke. intros [<- | []]. split; reflexivity.
    + intros [].
Qed.

(** ** The layer writes nothing itself *)











End Views.

(** ** Properties of the classes *)

Lemma views_complete (v : view) : In v views.
Proof. destruct v; cbn; tauto. Qed.

Lemma use_cases_NoDup : NoDup (map usecase_cls views).
Proof.
  cbn.
  repeat (constructor; [cbn; intuition discriminate |]).
  constructor.
Qed.

(** C8, as the claim counts them: the views do not delegate to six use
    cases; no list of six use-case classes holds the [usecase_cls] of
    every view. *)
Lemma use_cases_are_not_six :
  ~ (exists ucs : list usecase,
        length ucs = 6 /\ forall v : view, In (usecase_cls v) ucs).
Proof.
  intros [ucs [Hlen Hall]].
  pose proof use_cases_NoDup as Hnd.
  assert (Hincl : incl (map usecase_cls views) ucs).
  { intros uc Huc. apply in_map_iff in Huc as [v [<- _]]. apply Hall. }
  pose proof (NoDup_incl_length Hnd Hincl) as Hle.
  rewrite Hlen in Hle. cbn in Hle.
  repeat apply le_S_n in Hle. inversion Hle.
Qed.

(** C8, amended.  The layer has seven views, each with one use-case class
    and the request-object class of the same name, no two views sharing a
    use case; and the change-password, send-reset-email, reset-password,
    login and logout views define a handler for POST and for no other
    method. *)
Theorem views_delegate_to_their_use_case :
  length views = 7
  /\ (forall v : view, In v views)
  /\ map (fun v => (v, usecase_cls v, request_object_cls v)) views =
     [ (CreateAccountResource, CreateAccountUseCase,
        CreateAccountRequestObject);
       (UpdateAccountResource, UpdateAccountUseCase,
        UpdateAccountRequestObject);
       (ChangePasswordResource, ChangeAccountPasswordUseCase,
        ChangeAccountPasswordRequestObject);
       (SendResetPasswordEmailResource, SendResetPasswordEmailUsecase,
        SendResetPasswordEmailRequestObject);
       (ResetPasswordResource, ResetPasswordUsecase,
        ResetPasswordRequestObject);
       (LoginResource, LoginUseCase, LoginRequestObject);
       (LogoutResource, LogoutUseCase, LogoutRequestObject) ]
  /\ NoDup (map usecase_cls views)
  /\ map handlers
         [ ChangePasswordResource; SendResetPasswordEmailResource;
           ResetPasswordResource; LoginResource; LogoutResource ] =
     [ [POST]; [POST]; [POST]; [POST]; [POST] ].
Proof.
  split; [reflexivity |].
  split; [apply views_complete |].
  split; [reflexivity |].
  split; [apply use_cases_NoDup | reflexivity].
Qed.

(** C10, as the claim has it: the two password-reset views are not the
    only ones without the [is_authenticated()] guard. *)
Lemma reset_views_are_not_the_only_unguarded :
  ~ (forall v : view,
        ~ In is_authenticated (decorators v) ->
        v = SendResetPasswordEmailResource \/ v = ResetPasswordResource).
Proof.
  intros H.
  destruct (H LoginResource) as [E | E]; [| discriminate E | discriminate E].
  cbn. tauto.
Qed.

(** C10, amended.  [is_authenticated()] is among the decorators of
    [CreateAccountResource], [UpdateAccountResource],
    [ChangePasswordResource] and [LogoutResource] and of no other view:
    the two password-reset views and the login view are the ones that can
    be reached without an authenticated account. *)
Theorem guard_present_except_reset_and_login (v : view) :
  (In is_authenticated (decorators v) <->
   v = CreateAccountResource \/ v = UpdateAccountResource \/
   v = ChangePasswordResource \/ v = LogoutResource)
  /\ (~ In is_authenticated (decorators v) <->
      v = SendResetPasswordEmailResource \/ v = ResetPasswordResource \/
      v = LoginResource).
Proof.
  destruct v; cbn; repeat split; intros H; try tauto;
    try (intros [E | []]; clear E);
    try (decompose [or] H; discriminate).
Qed.

(** ** The theorems at work on the stand-in *)

(** Account 7 changes its password: the use case gets identifier 7. *)
Lemma ChangePasswordResource_post_forwards_demo :
  account (context (demo_world (Some demo_account) plain_payload))
  = Some demo_account
  /\ getattr demo_account "id" = Val (PyInt 7)
  /\ ChangePasswordResource_post demo_process_request demo_perform_import
       (demo_world (Some demo_account) plain_payload)
     = forwards demo_process_request ChangeAccountPasswordUseCase
         ChangeAccountPasswordRequestObject
         (PyDict [("identifier", PyInt 7); ("data", plain_payload)])
         (demo_world (Some demo_account) plain_payload).
Proof.
  split; [reflexivity |]. split; [reflexivity |].
  apply (ChangePasswordResource_post_forwards
           demo_process_request demo_perform_import
           (demo_world (Some demo_account) plain_payload)
           (acc := demo_account) (ident := PyInt 7));
    reflexivity.
Defined.

(** Account 7 sends a payload that names account 999 at its top level:
    the use case still gets identifier 7, and the payload travels under
    ['data']. *)
Lemma ChangePasswordResource_identifier_from_context_demo :
  forwarded "identifier"
    (ChangePasswordResource_post demo_process_request demo_perform_import
       (demo_world (Some demo_account) forged_payload))
  = [Some (PyInt 7)]
  /\ forwarded "identifier"
       (ChangePasswordResource_post demo_process_request demo_perform_import
          (demo_world (Some demo_account) plain_payload))
     = [Some (PyInt 7)]
  /\ forwarded "data"
       (ChangePasswordResource_post demo_process_request demo_perform_import
          (demo_world (Some demo_account) forged_payload))
     = [Some forged_payload]
  /\ forwarded "data"
       (ChangePasswordResource_post demo_process_request demo_perform_import
          (demo_world (Some demo_account) plain_payload))
     = [Some plain_payload].
Proof.
  apply (ChangePasswordResource_identifier_from_context
           demo_process_request demo_perform_import
           (demo_world (Some demo_account) forged_payload)
           (demo_world (Some demo_account) plain_payload)
           (acc := demo_account) (ident := PyInt 7));
    reflexivity.
Defined.

Lemma LogoutResource_post_forwards_demo :
  account (context (demo_world (Some demo_account) PyNone))
  = Some demo_account
  /\ LogoutResource_post demo_process_request demo_perform_import
       (demo_world (Some demo_account) PyNone)
     = forwards demo_process_request LogoutUseCase LogoutRequestObject
         (PyDict [("account", demo_account)])
         (demo_world (Some demo_account) PyNone).
Proof.
  split; [reflexivity |].
  apply (LogoutResource_post_forwards
           demo_process_request demo_perform_import
           (demo_world (Some demo_account) PyNone) (acc := demo_account)).
  reflexivity.
Defined.

(** Nobody is logged in: the login handler still reaches its use case. *)
Lemma handler_needs_account_iff_guarded_demo :
  let h := LoginResource_post demo_process_request demo_perform_import
             demo_isinstance_Entity demo_to_dict in
  let w := demo_world None plain_payload in
  handler demo_process_request demo_perform_import demo_isinstance_Entity
          demo_to_dict LoginResource POST PyNone = Some h
  /\ account (context w) = None
  /\ (calls (h w) = [] <-> In is_authenticated (decorators LoginResource))
  /\ (~ In is_authenticated (decorators LoginResource) ->
      forall w' : World nat,
        request w' = request w -> calls (h w') = calls (h w)).
Proof.
  intros h w. split; [reflexivity |]. split; [reflexivity |].
  apply (handler_needs_account_iff_guarded
           demo_process_request demo_perform_import demo_isinstance_Entity
           demo_to_dict LoginResource POST PyNone (h := h) w);
    reflexivity.
Defined.

(** The use case refuses a reset: the handler ends in the same error. *)
Lemma handler_propagates_use_case_error_demo :
  let h := ResetPasswordResource_post refusing_process_request
             demo_perform_import (PyStr "tok-1") in
  let w := demo_world None plain_payload in
  let p := PyDict [("token", PyStr "tok-1"); ("data", plain_payload)] in
  handler refusing_process_request demo_perform_import
          demo_isinstance_Entity demo_to_dict
          ResetPasswordResource POST (PyStr "tok-1") = Some h
  /\ calls (h w) =
     [ProcessRequest (usecase_cls ResetPasswordResource)
        (request_object_cls ResetPasswordResource) p true]
  /\ res (h w) = Raised (OtherError "ValidationError" "rejected")
  /\ final (h w) =
     snd (refusing_process_request (usecase_cls ResetPasswordResource)
            (request_object_cls ResetPasswordResource) p true w).
Proof.
  intros h w p. split; [reflexivity |]. split; [reflexivity |].
  apply (handler_propagates_use_case_error
           refusing_process_request demo_perform_import
           demo_isinstance_Entity demo_to_dict
           ResetPasswordResource POST (PyStr "tok-1") (h := h) w
           (p := p) (e := OtherError "ValidationError" "rejected"));
    reflexivity.
Defined.

